(** * moactl: [list regions] (cmd/list/region/cmd.go)

    A shallow embedding of the [run] procedure of the [regions] subcommand
    and of the part of Go it relies on: formatted printing, [os.Exit],
    [defer], run-time panics and [for ... range] with [continue].

    The collaborators of the command (reporter, logger, the OCM connection,
    the AWS client, the region provider) live in other packages. Their
    answers are gathered in a [World]; [run] is a function of the world and
    of the parsed command line, and yields the chronological trace of what
    the process did together with the way it stopped. *)

From Stdlib Require Import String Ascii List Bool ZArith Lia.
From Stdlib Require Import Permutation.
Import ListNotations.

Set Implicit Arguments.

Local Open Scope string_scope.
Local Open Scope list_scope.

(** ** Go values *)

(** An [error] is kept as the text its [Error()] method returns, which is
    what the verbs [%v] and [%s] print. A nil error is [None]. *)
Definition error : Set := string.

(** A Go interpreted string literal: the escapes [\t] and [\n] stand for
    the tab and the line feed. *)
Fixpoint interpreted (lit : string) : string :=
  match lit with
  | String "\" (String "t" rest) => String "009" (interpreted rest)
  | String "\" (String "n" rest) => String "010" (interpreted rest)
  | String c rest => String c (interpreted rest)
  | EmptyString => EmptyString
  end.

Module fmt.

(** The operands the command hands to the formatting functions. *)
Inductive operand : Set :=
| Str (s : string)
| Bool (b : bool)
| Err (e : error).

(** The parts of a format string: literal characters and verbs. *)
Inductive directive : Set :=
| Lit (c : ascii)
| Verb (c : ascii).

Fixpoint parse (format : string) : list directive :=
  match format with
  | String "%" (String v rest) => Verb v :: parse rest
  | String c rest => Lit c :: parse rest
  | EmptyString => []
  end.

(** [%t] prints the word true or false; [%s] and [%v] print a string as
    it is and an error through its message; [%v] prints a boolean like
    [%t]. Any other pairing gets the bad-verb marker. *)
Definition verb (v : ascii) (x : operand) : string :=
  match v, x with
  | "s"%char, Str s | "v"%char, Str s => s
  | "s"%char, Err e | "v"%char, Err e => e
  | "t"%char, Bool b | "v"%char, Bool b => if b then "true" else "false"
  | _, _ => "%!" ++ String v "(BADVERB)"
  end.

Fixpoint render (ds : list directive) (a : list operand) : string :=
  match ds with
  | [] => ""
  | Lit c :: ds' => String c (render ds' a)
  | Verb v :: ds' =>
      match a with
      | x :: a' => verb v x ++ render ds' a'
      | [] => "%!" ++ String v "(MISSING)" ++ render ds' []
      end
  end.

Definition Sprintf (format : string) (a : list operand) : string :=
  render (parse (interpreted format)) a.

End fmt.

(** ** Data *)

(** A cloud region as the command reads it, through the four accessors
    [ID()], [DisplayName()], [Enabled()] and [SupportsMultiAZ()]. *)
Record Region : Set := {
  ID : string;
  DisplayName : string;
  Enabled : bool;
  SupportsMultiAZ : bool
}.

Module aws.
(** The pair [GetAWSAccessKeys] returns. *)
Record AccessKey : Set := {
  AccessKeyID : string;
  SecretAccessKey : string
}.
End aws.

Module cluster.
Record AWSCredentials : Set := {
  AccessKeyID : string;
  SecretAccessKey : string
}.

Record CCS : Set := {
  Enabled : bool;
  AWS : AWSCredentials
}.
End cluster.

(** The package variable [args], filled by the flag parser. *)
Record Args : Set := { multiAZ : bool }.

(** The flag set of the command: [Changed name] tells whether the user
    supplied the flag. *)
Record FlagSet : Set := { Changed : string -> bool }.

(** ** The collaborators *)

(** How a call that may dereference nil ends. *)
Inductive Called (A : Type) : Type :=
| Returns (a : A)
| Panics.
Arguments Panics {A}.

(** What the other packages answer during one invocation. A call that
    returns [(value, err)] is kept as such a pair: Go hands back both, and
    line 90 and line 100 use the value whatever [err] is.
    - [CreateReporterOrExit], [CreateLoggerOrExit]: [Some code] when the
      call ends the process itself with that status;
    - [NewConnection_Build], [NewClient_Build]: the [err] of the builder;
    - [Connection_Close]: the [err] of [ocmConnection.Close()];
    - [GetAWSAccessKeys]: the call on [awsClient], which panics on an
      unusable client; the returned key is [None] when it is nil;
    - [GetRegions]: the provider's answer for a provider name and CCS. *)
Record World : Type := {
  CreateReporterOrExit : option Z;
  CreateLoggerOrExit : option Z;
  NewConnection_Build : option error;
  Connection_Close : option error;
  NewClient_Build : option error;
  GetAWSAccessKeys : Called (option aws.AccessKey * option error);
  GetRegions : string -> cluster.CCS -> list Region * option error
}.

(** ** What a run does *)

(** The levels of the reporter. *)
Inductive Level : Set := Error | Warning | Debug.

(** One event per call that reaches outside the procedure, with what the
    call answered. [Written text] is a [fmt.Fprintf] into the tabwriter
    that wraps [os.Stdout]; [Flushed] is [writer.Flush()], which sends the
    aligned table to standard output. *)
Inductive Event : Type :=
| CreatedReporter
| CreatedLogger
| BuiltConnection (err : option error)
| ClosedConnection (err : option error)
| BuiltClient (region : string) (err : option error)
| GotAWSAccessKeys (res : Called (option aws.AccessKey * option error))
| GotRegions (provider : string) (ccs : cluster.CCS)
             (res : list Region * option error)
| Reported (level : Level) (msg : string)
| Written (text : string)
| Flushed.

(** The ways a statement can leave the normal flow. *)
Inductive Stop : Set :=
| OsExit (code : Z)
| Panic
| Continue.

Inductive Result (A : Type) : Type :=
| Done (a : A)
| Halt (s : Stop).
Arguments Halt {A}.

(** A computation: the events it caused, oldest first, and how it ended. *)
Definition M (A : Type) : Type := (list Event * Result A)%type.

Definition ret {A} (a : A) : M A := ([], Done a).

Definition bind {A B} (m : M A) (k : A -> M B) : M B :=
  match m with
  | (t, Done a) => let (t', r) := k a in (t ++ t', r)
  | (t, Halt s) => (t, Halt s)
  end.

Declare Scope go_scope.
Delimit Scope go_scope with go.
Notation "x <- m ;; k" := (bind m (fun x => k))
  (at level 61, m at next level, right associativity) : go_scope.
Notation "' pat <- m ;; k" := (bind m (fun x => match x with pat => k end))
  (at level 61, pat pattern, m at next level, right associativity) : go_scope.
Notation "m ;; k" := (bind m (fun _ => k))
  (at level 61, right associativity) : go_scope.
Local Open Scope go_scope.

Definition emit (e : Event) : M unit := ([e], Done tt).

(** [os.Exit(code)]: the process ends at once. *)
Definition os_Exit {A} (code : Z) : M A := ([], Halt (OsExit code)).

Definition panic {A} : M A := ([], Halt Panic).

(** The [continue] statement. *)
Definition continue : M unit := ([], Halt Continue).

(** [defer d] followed by the rest of the function body: [d] runs when the
    body returns or panics, and does not run when the body ends the
    process through [os.Exit]. *)
Definition defer {A} (d : M unit) (body : M A) : M A :=
  match body with
  | (t, Halt (OsExit code)) => (t, Halt (OsExit code))
  | (t, r) =>
      match d with
      | (t', Done _) => (t ++ t', r)
      | (t', Halt s) => (t ++ t', Halt s)
      end
  end.
Notation "'defer_' d ;; k" := (defer d k)
  (at level 61, d at next level, right associativity) : go_scope.

(** [for _, x := range l { body }]; a [continue] in the body moves on to
    the next element. *)
Fixpoint for_range {A} (l : list A) (body : A -> M unit) : M unit :=
  match l with
  | [] => ret tt
  | x :: l' =>
      match body x with
      | (t, Done _) | (t, Halt Continue) =>
          let (t', r) := for_range l' body in (t ++ t', r)
      | (t, Halt s) => (t, Halt s)
      end
  end.

(** Modelled from the spec: the caller of [run] (the program's [main]) is
    not in this file; the spec gives exit code 0 for normal completion. *)
Definition returned_exit_code : Z := 0.

(** The status the process ends with: the argument of [os.Exit], 2 after
    a panic that nothing recovers, and the status of a normal completion
    when [run] returns. ([continue] cannot leave a function body.) *)
Definition exit_code (r : Result unit) : Z :=
  match r with
  | Halt (OsExit code) => code
  | Halt Panic => 2
  | Done _ | Halt Continue => returned_exit_code
  end.

(** ** The calls of [run] *)

Module reporter.
Definition Errorf (format : string) (a : list fmt.operand) : M unit :=
  emit (Reported Error (fmt.Sprintf format a)).
Definition Warnf (format : string) (a : list fmt.operand) : M unit :=
  emit (Reported Warning (fmt.Sprintf format a)).
Definition Debugf (format : string) (a : list fmt.operand) : M unit :=
  emit (Reported Debug (fmt.Sprintf format a)).
End reporter.

Module writer.
(** [fmt.Fprintf(writer, format, a...)]. *)
Definition Fprintf (format : string) (a : list fmt.operand) : M unit :=
  emit (Written (fmt.Sprintf format a)).
Definition Flush : M unit := emit Flushed.
End writer.

(** A call of the form [...OrExit()]: it returns, or ends the process. *)
Definition or_exit (e : Event) (exits : option Z) : M unit :=
  emit e ;;
  match exits with
  | Some code => os_Exit code
  | None => ret tt
  end.

(** A call that returns: [e] records it with its answer. *)
Definition call {A} (e : A -> Event) (answer : A) : M A :=
  emit (e answer) ;;
  ret answer.

(** A call that may panic. *)
Definition call_or_panic {A} (e : Called A -> Event) (res : Called A) : M A :=
  emit (e res) ;;
  match res with
  | Returns a => ret a
  | Panics => panic
  end.

(** Reading a field through a reference: a nil reference panics. *)
Definition deref {A} (p : option A) : M A :=
  match p with
  | Some a => ret a
  | None => panic
  end.

Section Run.

(** Two constants of package [aws], which is not in this file. *)
Variable AdminUserName : string.
Variable DefaultRegion : string.

Variable w : World.
Variable cmd : FlagSet.
Variable args : Args.

Definition run : M unit :=
  or_exit CreatedReporter (CreateReporterOrExit w) ;;
  or_exit CreatedLogger (CreateLoggerOrExit w) ;;

  (* Create the client for the OCM API: *)
  err <- call BuiltConnection (NewConnection_Build w) ;;
  match err with
  | Some e =>
      reporter.Errorf "Failed to create OCM connection: %v" [fmt.Err e] ;;
      os_Exit 1
  | None => ret tt
  end ;;
  defer_ (err <- call ClosedConnection (Connection_Close w) ;;
          match err with
          | Some e =>
              reporter.Errorf "Failed to close OCM connection: %v" [fmt.Err e]
          | None => ret tt
          end) ;;

  (* Get the client for the OCM collection of clusters: an accessor of the
     connection, which the provider is called with. *)

  (* Create the AWS client: *)
  err <- call (BuiltClient DefaultRegion) (NewClient_Build w) ;;
  match err with
  | Some e => reporter.Errorf "Failed to create AWS client: %v" [fmt.Err e]
  | None => ret tt
  end ;;

  (* Get AWS credentials from the cloudformation stack: *)
  '(awsAccessKey, err) <- call_or_panic GotAWSAccessKeys (GetAWSAccessKeys w) ;;
  match err with
  | Some e =>
      reporter.Errorf "Failed to get access keys for user '%s': %v"
                      [fmt.Str AdminUserName; fmt.Err e]
  | None => ret tt
  end ;;

  (* Try to find the cluster: *)
  reporter.Debugf "Fetching regions" [] ;;
  key <- deref awsAccessKey ;;
  let ccs := {|
    cluster.Enabled := true;
    cluster.AWS := {|
      cluster.AccessKeyID := aws.AccessKeyID key;
      cluster.SecretAccessKey := aws.SecretAccessKey key
    |}
  |} in
  '(regions, err) <- call (GotRegions "aws" ccs) (GetRegions w "aws" ccs) ;;
  match err with
  | Some e =>
      reporter.Errorf "Failed to fetch regions: %v" [fmt.Err e] ;;
      os_Exit 1
  | None => ret tt
  end ;;

  (if Nat.eqb (length regions) 0 then
     reporter.Warnf "There are no regions available for this AWS account" [] ;;
     os_Exit 1
   else ret tt) ;;

  (* Create the writer that will be used to print the tabulated results: *)
  writer.Fprintf "ID\t\tNAME\t\tMULTI-AZ SUPPORT\n" [] ;;

  for_range regions (fun region =>
    (if negb (Enabled region) then continue else ret tt) ;;
    (if Changed cmd "multi-az" then
       if negb (Bool.eqb (multiAZ args) (SupportsMultiAZ region))
       then continue else ret tt
     else ret tt) ;;
    writer.Fprintf "%s\t\t%s\t\t%t\n"
                   [fmt.Str (ID region);
                    fmt.Str (DisplayName region);
                    fmt.Bool (SupportsMultiAZ region)]) ;;
  writer.Flush.

End Run.

(** ** Reading a run *)

Definition trace {A} (m : M A) : list Event := fst m.
Definition outcome {A} (m : M A) : Result A := snd m.

(** The first event of a trace that [pick] selects. *)
Fixpoint first {A} (pick : Event -> option A) (t : list Event) : option A :=
  match t with
  | [] => None
  | e :: t' =>
      match pick e with
      | Some a => Some a
      | None => first pick t'
      end
  end.

(** The [err] of the connection builder, when the run called it. *)
Definition connected : list Event -> option (option error) :=
  first (fun e => match e with BuiltConnection err => Some err | _ => None end).

(** The [err] of the AWS client builder, when the run called it. *)
Definition client_built : list Event -> option (option error) :=
  first (fun e => match e with BuiltClient _ err => Some err | _ => None end).

(** The answer of the key lookup, when the run performed it. *)
Definition keys_got
  : list Event -> option (Called (option aws.AccessKey * option error)) :=
  first (fun e => match e with GotAWSAccessKeys res => Some res | _ => None end).

(** The answer of the region fetch, when the run performed it. *)
Definition fetched : list Event -> option (list Region * option error) :=
  first (fun e => match e with GotRegions _ _ res => Some res | _ => None end).

(** The lines handed to the table writer, in order. *)
Fixpoint written (t : list Event) : list string :=
  match t with
  | [] => []
  | Written text :: t' => text :: written t'
  | _ :: t' => written t'
  end.

(** What reached standard output. The table writer buffers the lines it
    is handed and lets them out when it is flushed: lines written and
    never flushed are not printed. The lines are kept as they were handed
    in, cells ended by tabs, before the writer pads the columns. *)
Fixpoint printed_from (buffer : list string) (t : list Event) : list string :=
  match t with
  | [] => []
  | Written text :: t' => printed_from (buffer ++ [text]) t'
  | Flushed :: t' => buffer ++ printed_from [] t'
  | _ :: t' => printed_from buffer t'
  end.

Definition printed (t : list Event) : list string := printed_from [] t.

(** The printed data rows: everything after the header. *)
Definition rows (t : list Event) : list string := tl (printed t).

Definition is_flush (e : Event) : bool :=
  match e with Flushed => true | _ => false end.

Definition is_close (e : Event) : bool :=
  match e with ClosedConnection _ => true | _ => false end.

(** Whether the table reached standard output. *)
Definition flushed (t : list Event) : bool := existsb is_flush t.

(** How many times the connection was closed. *)
Definition closes (t : list Event) : nat := length (filter is_close t).

(** The messages the reporter printed at a level. *)
Fixpoint reports (l : Level) (t : list Event) : list string :=
  match t with
  | [] => []
  | Reported l' msg :: t' =>
      match l, l' with
      | Error, Error | Warning, Warning | Debug, Debug => msg :: reports l t'
      | _, _ => reports l t'
      end
  | _ :: t' => reports l t'
  end.

(** ** The table, as the spec words it

    The header, the row of a region and the regions that survive the
    filter, stated from the spec; the lemmas below compare what [run]
    writes with them. *)

Definition TAB : string := String "009" "".
Definition LF : string := String "010" "".

Definition header : string :=
  "ID" ++ TAB ++ TAB ++ "NAME" ++ TAB ++ TAB ++ "MULTI-AZ SUPPORT" ++ LF.

Definition bool_literal (b : bool) : string := if b then "true" else "false".

(** The row of a region: id, display name and multi-AZ support. *)
Definition row (r : Region) : string :=
  ID r ++ TAB ++ TAB ++ DisplayName r ++ TAB ++ TAB
       ++ bool_literal (SupportsMultiAZ r) ++ LF.

(** The user's choice for [--multi-az]: not supplied, or supplied with a
    value. *)
Definition requested (cmd : FlagSet) (args : Args) : option bool :=
  if Changed cmd "multi-az" then Some (multiAZ args) else None.

(** The regions the spec keeps: enabled and, when a value was requested,
    with that multi-AZ support. *)
Definition surviving (req : option bool) (regions : list Region) : list Region :=
  filter (fun r =>
            Enabled r &&
            match req with
            | Some v => Bool.eqb v (SupportsMultiAZ r)
            | None => true
            end) regions.

(** ** The paths of [run]

    The stretches of trace the paths of [run] are made of; the path lemmas
    below prove that [run] produces them. *)

(** The descriptor [run] builds from the access key. *)
Definition credentials (key : aws.AccessKey) : cluster.CCS := {|
  cluster.Enabled := true;
  cluster.AWS := {|
    cluster.AccessKeyID := aws.AccessKeyID key;
    cluster.SecretAccessKey := aws.SecretAccessKey key
  |}
|}.

(** The trace of the deferred function. *)
Definition closing (w : World) : list Event :=
  ClosedConnection (Connection_Close w) ::
  match Connection_Close w with
  | Some e => [Reported Error ("Failed to close OCM connection: " ++ e)]
  | None => []
  end.

(** The trace from the AWS client to the debug message of line 96. *)
Definition resolving (AdminUserName DefaultRegion : string) (w : World)
    (res : Called (option aws.AccessKey * option error)) : list Event :=
  BuiltClient DefaultRegion (NewClient_Build w) ::
  match NewClient_Build w with
  | Some e => [Reported Error ("Failed to create AWS client: " ++ e)]
  | None => []
  end ++
  GotAWSAccessKeys res ::
  match res with
  | Returns (_, kerr) =>
      match kerr with
      | Some e =>
          [Reported Error ("Failed to get access keys for user '"
                           ++ AdminUserName ++ "': " ++ e)]
      | None => []
      end ++ [Reported Debug "Fetching regions"]
  | Panics => []
  end.

(** The trace of a run up to the answer of the provider. *)
Definition fetching (AdminUserName DefaultRegion : string) (w : World)
    (key : aws.AccessKey) (kerr : option error) : list Event :=
  [CreatedReporter; CreatedLogger; BuiltConnection None] ++
  resolving AdminUserName DefaultRegion w (Returns (Some key, kerr)) ++
  [GotRegions "aws" (credentials key) (GetRegions w "aws" (credentials key))].

(** The world [w] with another answer of [ocmConnection.Close()]. *)
Definition with_close (w : World) (err : option error) : World := {|
  CreateReporterOrExit := CreateReporterOrExit w;
  CreateLoggerOrExit := CreateLoggerOrExit w;
  NewConnection_Build := NewConnection_Build w;
  Connection_Close := err;
  NewClient_Build := NewClient_Build w;
  GetAWSAccessKeys := GetAWSAccessKeys w;
  GetRegions := GetRegions w
|}.

(** A stretch of trace that wrote nothing to the table and closed nothing. *)
Definition quiet (pre : list Event) : Prop :=
  written pre = [] /\ flushed pre = false /\ closes pre = 0 /\
  reports Warning pre = [].

(** ** Sample invocations *)

Module Sample.

Definition us_east_1 : Region :=
  {| ID := "us-east-1"; DisplayName := "US East";
     Enabled := true; SupportsMultiAZ := true |}.
Definition us_west_1 : Region :=
  {| ID := "us-west-1"; DisplayName := "US West";
     Enabled := false; SupportsMultiAZ := true |}.
Definition eu_west_1 : Region :=
  {| ID := "eu-west-1"; DisplayName := "EU West";
     Enabled := true; SupportsMultiAZ := false |}.

Definition regions : list Region := [us_east_1; us_west_1; eu_west_1].

Definition key : aws.AccessKey :=
  {| aws.AccessKeyID := "AKIDEXAMPLE"; aws.SecretAccessKey := "secret" |}.

(** Every collaborator answers without an error, and the provider
    answers [res]. *)
Definition world (res : list Region * option error) : World := {|
  CreateReporterOrExit := None;
  CreateLoggerOrExit := None;
  NewConnection_Build := None;
  Connection_Close := None;
  NewClient_Build := None;
  GetAWSAccessKeys := Returns (Some key, None);
  GetRegions := fun _ _ => res
|}.

(** The connection cannot be built. *)
Definition no_connection : World := {|
  CreateReporterOrExit := None;
  CreateLoggerOrExit := None;
  NewConnection_Build := Some "connection refused";
  Connection_Close := None;
  NewClient_Build := None;
  GetAWSAccessKeys := Returns (Some key, None);
  GetRegions := fun _ _ => (regions, None)
|}.

(** The AWS client cannot be built and the key lookup fails, while still
    handing back a key. *)
Definition no_credentials : World := {|
  CreateReporterOrExit := None;
  CreateLoggerOrExit := None;
  NewConnection_Build := None;
  Connection_Close := None;
  NewClient_Build := Some "no session";
  GetAWSAccessKeys := Returns (Some key, Some "access denied");
  GetRegions := fun _ _ => (regions, None)
|}.

Definition unset : FlagSet := {| Changed := fun _ => false |}.
Definition supplied : FlagSet := {| Changed := String.eqb "multi-az" |}.

Definition want (v : bool) : Args := {| multiAZ := v |}.

Definition AdminUserName : string := "osdCcsAdmin".
Definition DefaultRegion : string := "us-east-1".

(** The command in a sample world. *)
Definition run (w : World) (cmd : FlagSet) (args : Args) : M unit :=
  run AdminUserName DefaultRegion w cmd args.

End Sample.

(** ** Counting calls, and worlds that differ in one answer *)




(** A string without a tab. *)
Fixpoint tab_free (s : string) : bool :=
  match s with
  | EmptyString => true
  | String c s' => negb (Ascii.eqb c "009") && tab_free s'
  end.

(** The world [w] where the AWS client builder answers [cerr] and the key
    lookup, when it returns, hands back the same key with the error
    [kerr]. *)
Definition with_credential_errors (w : World) (cerr kerr : option error)
  : World := {|
  CreateReporterOrExit := CreateReporterOrExit w;
  CreateLoggerOrExit := CreateLoggerOrExit w;
  NewConnection_Build := NewConnection_Build w;
  Connection_Close := Connection_Close w;
  NewClient_Build := cerr;
  GetAWSAccessKeys :=
    match GetAWSAccessKeys w with
    | Returns (key, _) => Returns (key, kerr)
    | Panics => Panics
    end;
  GetRegions := GetRegions w
|}.

Module Edge.

(** The key lookup fails and hands back a nil key. *)
Definition nil_key : World := {|
  CreateReporterOrExit := None;
  CreateLoggerOrExit := None;
  NewConnection_Build := None;
  Connection_Close := None;
  NewClient_Build := None;
  GetAWSAccessKeys := Returns (None, Some "stack not found");
  GetRegions := fun _ _ => (Sample.regions, None)
|}.

(** Everything succeeds up to the table, and [Close] fails. *)
Definition close_fails : World :=
  with_close (Sample.world (Sample.regions, None)) (Some "broken pipe").

(** The provider answers by the secret it is handed. *)
Definition by_secret : World := {|
  CreateReporterOrExit := None;
  CreateLoggerOrExit := None;
  NewConnection_Build := None;
  Connection_Close := None;
  NewClient_Build := None;
  GetAWSAccessKeys := Returns (Some Sample.key, Some "throttled");
  GetRegions := fun _ ccs =>
    if String.eqb (cluster.SecretAccessKey (cluster.AWS ccs)) "secret"
    then (Sample.regions, None)
    else ([], Some "forbidden")
|}.

End Edge.

(** ** Formatting *)

Lemma append_empty_r (s : string) : (s ++ "")%string = s.
Proof. induction s as [|c s IH]; simpl; [reflexivity | now rewrite IH]. Qed.

Lemma Sprintf_connection (e : error) :
  fmt.Sprintf "Failed to create OCM connection: %v" [fmt.Err e]
  = ("Failed to create OCM connection: " ++ e)%string.
Proof. cbn. now rewrite append_empty_r. Qed.

Lemma Sprintf_close (e : error) :
  fmt.Sprintf "Failed to close OCM connection: %v" [fmt.Err e]
  = ("Failed to close OCM connection: " ++ e)%string.
Proof. cbn. now rewrite append_empty_r. Qed.

Lemma Sprintf_client (e : error) :
  fmt.Sprintf "Failed to create AWS client: %v" [fmt.Err e]
  = ("Failed to create AWS client: " ++ e)%string.
Proof. cbn. now rewrite append_empty_r. Qed.

Lemma Sprintf_keys (user : string) (e : error) :
  fmt.Sprintf "Failed to get access keys for user '%s': %v"
              [fmt.Str user; fmt.Err e]
  = ("Failed to get access keys for user '" ++ user ++ "': " ++ e)%string.
Proof. cbn. now rewrite append_empty_r. Qed.

Lemma Sprintf_fetch (e : error) :
  fmt.Sprintf "Failed to fetch regions: %v" [fmt.Err e]
  = ("Failed to fetch regions: " ++ e)%string.
Proof. cbn. now rewrite append_empty_r. Qed.

Lemma Sprintf_header :
  fmt.Sprintf "ID\t\tNAME\t\tMULTI-AZ SUPPORT\n" [] = header.
Proof. reflexivity. Qed.

Lemma Sprintf_row (r : Region) :
  fmt.Sprintf "%s\t\t%s\t\t%t\n"
              [fmt.Str (ID r); fmt.Str (DisplayName r);
               fmt.Bool (SupportsMultiAZ r)]
  = row r.
Proof. reflexivity. Qed.

(** ** Reading traces piecewise *)

Lemma written_app (t u : list Event) : written (t ++ u) = written t ++ written u.
Proof.
  induction t as [|e t IH]; simpl; [reflexivity|].
  destruct e; simpl; now rewrite ?IH.
Qed.

Lemma written_Written (l : list string) : written (map Written l) = l.
Proof. induction l as [|s l IH]; simpl; [reflexivity | now rewrite IH]. Qed.

Lemma printed_from_quiet (buffer : list string) (pre u : list Event) :
  written pre = [] ->
  flushed pre = false ->
  printed_from buffer (pre ++ u) = printed_from buffer u.
Proof.
  induction pre as [|e pre IH]; [reflexivity|].
  destruct e; simpl; try exact IH; discriminate.
Qed.

Lemma printed_from_Written (buffer lines : list string) (u : list Event) :
  printed_from buffer (map Written lines ++ u)
  = printed_from (buffer ++ lines) u.
Proof.
  revert buffer.
  induction lines as [|s lines IH]; intros buffer; simpl.
  - now rewrite app_nil_r.
  - now rewrite IH, <- app_assoc.
Qed.

Lemma printed_unwritten (t : list Event) :
  written t = [] -> printed t = [].
Proof.
  unfold printed. induction t as [|e t IH]; [reflexivity|].
  destruct e; simpl; try exact IH; discriminate.
Qed.

Lemma closes_app (t u : list Event) : closes (t ++ u) = closes t + closes u.
Proof. unfold closes. now rewrite filter_app, length_app. Qed.

Lemma closes_Written (l : list string) : closes (map Written l) = 0.
Proof. induction l as [|s l IH]; [reflexivity | exact IH]. Qed.

Lemma reports_app (l : Level) (t u : list Event) :
  reports l (t ++ u) = reports l t ++ reports l u.
Proof.
  induction t as [|e t IH]; simpl; [reflexivity|].
  destruct e; try exact IH.
  destruct l, level; simpl; now rewrite ?IH.
Qed.

(** ** The surviving regions *)

Lemma surviving_unset (regions : list Region) :
  surviving None regions = filter Enabled regions.
Proof. apply filter_ext. intros r. apply andb_true_r. Qed.

Lemma surviving_supplied (v : bool) (regions : list Region) :
  surviving (Some v) regions
  = filter (fun r => Enabled r && Bool.eqb (SupportsMultiAZ r) v) regions.
Proof.
  apply filter_ext. intros r.
  now destruct (Enabled r), v, (SupportsMultiAZ r).
Qed.

Lemma surviving_enabled (req : option bool) (regions : list Region) (r : Region) :
  In r (surviving req regions) -> In r regions /\ Enabled r = true.
Proof.
  unfold surviving. rewrite filter_In. intros [Hin Hkeep].
  apply andb_true_iff in Hkeep. tauto.
Qed.

(** ** The loop *)

Section Loop.

Variable cmd : FlagSet.
Variable args : Args.

(** The loop of [run] writes the rows of the surviving regions, in the
    order of the fetched sequence, and nothing else. *)
Lemma for_range_rows (regions : list Region) :
  for_range regions (fun region =>
    (if negb (Enabled region) then continue else ret tt) ;;
    (if Changed cmd "multi-az" then
       if negb (Bool.eqb (multiAZ args) (SupportsMultiAZ region))
       then continue else ret tt
     else ret tt) ;;
    writer.Fprintf "%s\t\t%s\t\t%t\n"
                   [fmt.Str (ID region);
                    fmt.Str (DisplayName region);
                    fmt.Bool (SupportsMultiAZ region)])
  = (map Written (map row (surviving (requested cmd args) regions)), Done tt).
Proof.
  unfold requested.
  induction regions as [|r regions IH]; [reflexivity|].
  cbn [for_range]. rewrite IH. clear IH.
  unfold writer.Fprintf. rewrite Sprintf_row.
  cbn [surviving filter].
  destruct (Enabled r); cbn; [|reflexivity].
  destruct (Changed cmd "multi-az"); cbn; [|reflexivity].
  destruct (Bool.eqb (multiAZ args) (SupportsMultiAZ r)); reflexivity.
Qed.

End Loop.

(** ** Reading the pieces of a run *)

Section Pieces.

Variable AdminUserName : string.
Variable DefaultRegion : string.
Variable w : World.

Ltac pieces :=
  unfold fetching, resolving, closing;
  repeat match goal with
    | |- context [match ?x with _ => _ end] => destruct x
    end;
  reflexivity.

Lemma fetched_resolving res (u : list Event) :
  fetched (resolving AdminUserName DefaultRegion w res ++ u) = fetched u.
Proof. pieces. Qed.

Lemma fetched_closing : fetched (closing w) = None.
Proof. pieces. Qed.

Lemma fetched_fetching key kerr (u : list Event) :
  fetched (fetching AdminUserName DefaultRegion w key kerr ++ u)
  = Some (GetRegions w "aws" (credentials key)).
Proof. pieces. Qed.

Lemma written_fetching key kerr :
  written (fetching AdminUserName DefaultRegion w key kerr) = [].
Proof. pieces. Qed.

Lemma flushed_fetching key kerr :
  flushed (fetching AdminUserName DefaultRegion w key kerr) = false.
Proof. pieces. Qed.

Lemma closes_fetching key kerr :
  closes (fetching AdminUserName DefaultRegion w key kerr) = 0.
Proof. pieces. Qed.

Lemma closes_resolving res :
  closes (resolving AdminUserName DefaultRegion w res) = 0.
Proof. pieces. Qed.

Lemma closes_closing : closes (closing w) = 1.
Proof. pieces. Qed.

Lemma written_closing : written (closing w) = [].
Proof. pieces. Qed.

Lemma warnings_fetching key kerr :
  reports Warning (fetching AdminUserName DefaultRegion w key kerr) = [].
Proof. pieces. Qed.

Lemma keys_got_resolving res (u : list Event) :
  keys_got (resolving AdminUserName DefaultRegion w res ++ u) = Some res.
Proof. pieces. Qed.

Lemma client_built_resolving res (u : list Event) :
  client_built (resolving AdminUserName DefaultRegion w res ++ u)
  = Some (NewClient_Build w).
Proof. pieces. Qed.

Lemma keys_got_fetching key kerr (u : list Event) :
  keys_got (fetching AdminUserName DefaultRegion w key kerr ++ u)
  = Some (Returns (Some key, kerr)).
Proof. pieces. Qed.

Lemma connected_fetching key kerr (u : list Event) :
  connected (fetching AdminUserName DefaultRegion w key kerr ++ u)
  = Some None.
Proof. pieces. Qed.

(** With a failed client builder, the report is followed by the key
    lookup. *)
Lemma resolving_client_failed (e : error) res :
  NewClient_Build w = Some e ->
  exists post,
    resolving AdminUserName DefaultRegion w res
    = [BuiltClient DefaultRegion (Some e);
       Reported Error ("Failed to create AWS client: " ++ e);
       GotAWSAccessKeys res] ++ post.
Proof. intros H. unfold resolving. rewrite H. eexists. reflexivity. Qed.

(** With a failed key lookup, the report is followed by the debug message
    of line 96. *)
Lemma resolving_keys_failed key (e : error) :
  exists pre,
    resolving AdminUserName DefaultRegion w (Returns (key, Some e))
    = pre ++ [GotAWSAccessKeys (Returns (key, Some e));
              Reported Error ("Failed to get access keys for user '"
                              ++ AdminUserName ++ "': " ++ e);
              Reported Debug "Fetching regions"].
Proof.
  unfold resolving.
  exists (BuiltClient DefaultRegion (NewClient_Build w)
          :: match NewClient_Build w with
             | Some e' =>
                 [Reported Error ("Failed to create AWS client: " ++ e')]
             | None => []
             end).
  destruct (NewClient_Build w); reflexivity.
Qed.

(** A failure of [Close] is reported by the deferred function. *)
Lemma reports_closing (e : error) (t : list Event) :
  Connection_Close w = Some e ->
  In ("Failed to close OCM connection: " ++ e)%string
     (reports Error (t ++ closing w)).
Proof.
  intros H. rewrite reports_app. apply in_or_app. right.
  unfold closing. rewrite H. now left.
Qed.

End Pieces.

(** ** The paths of [run], one by one *)

Section Paths.

Variable AdminUserName : string.
Variable DefaultRegion : string.
Variable w : World.
Variable cmd : FlagSet.
Variable args : Args.

Local Notation "'the_run'" := (run AdminUserName DefaultRegion w cmd args).

(** Runs the statements of [run] whose collaborators are known, leaving
    the messages and the loop as they are written. *)
Ltac step := cbn -[fmt.Sprintf for_range surviving].

Ltac messages :=
  rewrite ?Sprintf_connection, ?Sprintf_close, ?Sprintf_client,
    ?Sprintf_keys, ?Sprintf_fetch, ?Sprintf_header.

(** A run whose collaborators answer up to the access key. *)
Lemma run_fetches (key : aws.AccessKey) (kerr : option error) :
  CreateReporterOrExit w = None ->
  CreateLoggerOrExit w = None ->
  NewConnection_Build w = None ->
  GetAWSAccessKeys w = Returns (Some key, kerr) ->
  the_run =
  match GetRegions w "aws" (credentials key) with
  | (_, Some e) =>
      (fetching AdminUserName DefaultRegion w key kerr
         ++ [Reported Error ("Failed to fetch regions: " ++ e)],
       Halt (OsExit 1))
  | ([], None) =>
      (fetching AdminUserName DefaultRegion w key kerr
         ++ [Reported Warning
               "There are no regions available for this AWS account"],
       Halt (OsExit 1))
  | (regions, None) =>
      (fetching AdminUserName DefaultRegion w key kerr
         ++ Written header
         :: map Written (map row (surviving (requested cmd args) regions))
         ++ Flushed :: closing w,
       Done tt)
  end.
Proof.
  intros Hrep Hlog Hconn Hkeys.
  unfold run, fetching, resolving, closing, credentials.
  rewrite Hrep, Hlog, Hconn, Hkeys. step.
  destruct (GetRegions w "aws" _) as [[|r regions] [e|]];
    destruct (NewClient_Build w), kerr; step; messages;
    try reflexivity;
    rewrite for_range_rows; destruct (Connection_Close w); step; messages;
    rewrite <- ?app_assoc; reflexivity.
Qed.

(** The reporter or the logger ends the process. *)
Lemma run_no_reporter (code : Z) :
  CreateReporterOrExit w = Some code ->
  the_run = ([CreatedReporter], Halt (OsExit code)).
Proof. intros Hrep. unfold run. rewrite Hrep. reflexivity. Qed.

Lemma run_no_logger (code : Z) :
  CreateReporterOrExit w = None ->
  CreateLoggerOrExit w = Some code ->
  the_run = ([CreatedReporter; CreatedLogger], Halt (OsExit code)).
Proof. intros Hrep Hlog. unfold run. rewrite Hrep, Hlog. reflexivity. Qed.

(** The connection cannot be built: lines 66 to 69. *)
Lemma run_no_connection (e : error) :
  CreateReporterOrExit w = None ->
  CreateLoggerOrExit w = None ->
  NewConnection_Build w = Some e ->
  the_run =
  ([CreatedReporter; CreatedLogger; BuiltConnection (Some e);
    Reported Error ("Failed to create OCM connection: " ++ e)],
   Halt (OsExit 1)).
Proof.
  intros Hrep Hlog Hconn. unfold run. rewrite Hrep, Hlog, Hconn.
  step. messages. reflexivity.
Qed.

(** The key lookup panics, or hands back a nil key that line 100
    dereferences: the deferred function runs and the panic goes on. *)
Lemma run_panics (res : Called (option aws.AccessKey * option error)) :
  CreateReporterOrExit w = None ->
  CreateLoggerOrExit w = None ->
  NewConnection_Build w = None ->
  GetAWSAccessKeys w = res ->
  (res = Panics \/ exists kerr, res = Returns (None, kerr)) ->
  the_run =
  ([CreatedReporter; CreatedLogger; BuiltConnection None]
     ++ resolving AdminUserName DefaultRegion w res ++ closing w,
   Halt Panic).
Proof.
  intros Hrep Hlog Hconn Hkeys Hres.
  unfold run, resolving, closing. rewrite Hrep, Hlog, Hconn, Hkeys.
  destruct Hres as [-> | [kerr ->]]; [|destruct kerr];
    destruct (NewClient_Build w), (Connection_Close w);
    step; messages; reflexivity.
Qed.

(** Every run follows one of the paths above. *)
Ltac paths :=
  let code := fresh "code" in
  let e := fresh "e" in
  let key := fresh "key" in
  let kerr := fresh "kerr" in
  let Hrep := fresh "Hrep" in
  let Hlog := fresh "Hlog" in
  let Hconn := fresh "Hconn" in
  let Hkeys := fresh "Hkeys" in
  destruct (CreateReporterOrExit w) as [code|] eqn:Hrep;
  [ rewrite (run_no_reporter Hrep) in *
  | destruct (CreateLoggerOrExit w) as [code|] eqn:Hlog;
    [ rewrite (run_no_logger Hrep Hlog) in *
    | destruct (NewConnection_Build w) as [e|] eqn:Hconn;
      [ rewrite (run_no_connection Hrep Hlog Hconn) in *
      | destruct (GetAWSAccessKeys w) as [[[key|] kerr]|] eqn:Hkeys;
        [ rewrite (run_fetches Hrep Hlog Hconn Hkeys) in *
        | rewrite (run_panics Hrep Hlog Hconn Hkeys
                     (or_intror (ex_intro _ kerr eq_refl))) in *
        | rewrite (run_panics Hrep Hlog Hconn Hkeys
                     (or_introl eq_refl)) in * ] ] ] ].

(** The fetch is performed exactly when the reporter, the logger and the
    connection are there and the key lookup hands back a key; it is
    asked for provider "aws" with the credentials of that key. *)
Lemma fetched_inv (res : list Region * option error) :
  fetched (trace the_run) = Some res ->
  exists key kerr,
    CreateReporterOrExit w = None /\
    CreateLoggerOrExit w = None /\
    NewConnection_Build w = None /\
    GetAWSAccessKeys w = Returns (Some key, kerr) /\
    GetRegions w "aws" (credentials key) = res.
Proof.
  intros H. paths; try discriminate H.
  - exists key, kerr. repeat split.
    destruct (GetRegions w "aws" (credentials key))
      as [[|r regions] [e|]] eqn:G;
      unfold trace in H; cbn [fst] in H;
      rewrite fetched_fetching, G in H; now inversion H.
  - unfold trace in H; cbn [fst app fetched first] in H.
    rewrite fetched_resolving, fetched_closing in H. discriminate H.
  - unfold trace in H; cbn [fst app fetched first] in H.
    rewrite fetched_resolving, fetched_closing in H. discriminate H.
Qed.

(** Nothing is written, flushed, closed or warned about before the
    provider answers. *)
Lemma quiet_fetching key kerr :
  quiet (fetching AdminUserName DefaultRegion w key kerr).
Proof.
  repeat split;
    [ apply written_fetching | apply flushed_fetching
    | apply closes_fetching | apply warnings_fetching ].
Qed.

(** The three ways a run goes on after the provider answered. *)
Lemma run_fetch_error (regions : list Region) (e : error) :
  fetched (trace the_run) = Some (regions, Some e) ->
  exists pre, quiet pre /\
    the_run = (pre ++ [Reported Error ("Failed to fetch regions: " ++ e)],
               Halt (OsExit 1)).
Proof.
  intros H. destruct (fetched_inv H)
    as (key & kerr & Hrep & Hlog & Hconn & Hkeys & G).
  rewrite (run_fetches Hrep Hlog Hconn Hkeys), G.
  eexists. split; [apply quiet_fetching|]. now destruct regions.
Qed.

Lemma run_fetch_empty :
  fetched (trace the_run) = Some ([], None) ->
  exists pre, quiet pre /\
    the_run =
    (pre ++ [Reported Warning
               "There are no regions available for this AWS account"],
     Halt (OsExit 1)).
Proof.
  intros H. destruct (fetched_inv H)
    as (key & kerr & Hrep & Hlog & Hconn & Hkeys & G).
  rewrite (run_fetches Hrep Hlog Hconn Hkeys), G.
  eexists. split; [apply quiet_fetching | reflexivity].
Qed.

Lemma run_fetch_table (regions : list Region) :
  fetched (trace the_run) = Some (regions, None) ->
  regions <> [] ->
  exists pre, quiet pre /\
    the_run =
    (pre ++ Written header
         :: map Written (map row (surviving (requested cmd args) regions))
         ++ Flushed :: closing w,
     Done tt).
Proof.
  intros H Hne. destruct (fetched_inv H)
    as (key & kerr & Hrep & Hlog & Hconn & Hkeys & G).
  rewrite (run_fetches Hrep Hlog Hconn Hkeys), G.
  eexists. split; [apply quiet_fetching|].
  destruct regions; [contradiction | reflexivity].
Qed.

(** What a run that fetched a sequence printed. *)
Lemma printed_table (regions : list Region) :
  fetched (trace the_run) = Some (regions, None) ->
  regions <> [] ->
  printed (trace the_run)
  = header :: map row (surviving (requested cmd args) regions).
Proof.
  intros H Hne.
  destruct (run_fetch_table H Hne) as (pre & (Hw & Hf & _) & ->).
  unfold trace, printed; cbn [fst].
  rewrite (@printed_from_quiet _ _ _ Hw Hf). cbn [printed_from app].
  rewrite printed_from_Written. cbn [printed_from app].
  fold (printed (closing w)).
  rewrite (@printed_unwritten _ (written_closing w)). now rewrite app_nil_r.
Qed.

Lemma rows_fetched (regions : list Region) :
  fetched (trace the_run) = Some (regions, None) ->
  rows (trace the_run) = map row (surviving (requested cmd args) regions).
Proof.
  intros H. unfold rows. destruct regions as [|r regions].
  - destruct (run_fetch_empty H) as (pre & (Hw & _) & ->).
    unfold trace; cbn [fst]. rewrite printed_unwritten; [reflexivity|].
    now rewrite written_app, Hw.
  - now rewrite (printed_table H).
Qed.

(** C1. When the multi-az flag was not supplied, the rows printed for a
    fetched region sequence are the rows of exactly the regions whose
    enabled flag is true, in the order of the fetched sequence. *)
Theorem rows_without_flag (regions : list Region) :
  fetched (trace the_run) = Some (regions, None) ->
  Changed cmd "multi-az" = false ->
  rows (trace the_run) = map row (filter Enabled regions).
Proof.
  intros H Hunset. rewrite (rows_fetched H).
  unfold requested. rewrite Hunset. now rewrite surviving_unset.
Qed.

(** C2. When the multi-az flag was supplied with value [v], the rows
    printed are the rows of exactly the enabled regions whose multi-AZ
    support equals [v], in the original order; when it was not supplied,
    no region is dropped for its multi-AZ support, whatever value the
    flag variable holds. *)
Theorem rows_with_flag (regions : list Region) (v : bool) :
  fetched (trace the_run) = Some (regions, None) ->
  (Changed cmd "multi-az" = true -> multiAZ args = v ->
   rows (trace the_run)
   = map row (filter (fun r => Enabled r && Bool.eqb (SupportsMultiAZ r) v)
                     regions))
  /\
  (Changed cmd "multi-az" = false ->
   rows (trace the_run) = map row (filter Enabled regions)).
Proof.
  intros H. rewrite (rows_fetched H). unfold requested. split.
  - intros -> <-. now rewrite surviving_supplied.
  - intros ->. now rewrite surviving_unset.
Qed.

(** C3. Whatever the flag state, every printed row is the row of a region
    of the fetched sequence whose enabled flag is true: a region that is
    not enabled contributes no row. *)
Theorem disabled_regions_not_printed (regions : list Region)
    (err : option error) :
  fetched (trace the_run) = Some (regions, err) ->
  Forall (fun line =>
            exists r, In r regions /\ Enabled r = true /\ line = row r)
         (rows (trace the_run)).
Proof.
  intros H. destruct err as [e|].
  - destruct (run_fetch_error H) as (pre & (Hw & _) & ->).
    unfold rows, trace; cbn [fst]. rewrite printed_unwritten.
    + constructor.
    + now rewrite written_app, Hw.
  - rewrite (rows_fetched H). apply Forall_forall. intros line Hline.
    apply in_map_iff in Hline. destruct Hline as (r & <- & Hr).
    exists r. destruct (surviving_enabled _ _ _ Hr). auto.
Qed.

(** C4. When the fetch succeeds with an empty sequence, the process emits
    the warning, exits with code 1 and writes nothing to the table, not
    even the header. *)
Theorem empty_fetch_exits :
  fetched (trace the_run) = Some ([], None) ->
  outcome the_run = Halt (OsExit 1) /\
  exit_code (outcome the_run) = 1%Z /\
  reports Warning (trace the_run)
  = ["There are no regions available for this AWS account"] /\
  written (trace the_run) = [] /\
  printed (trace the_run) = [].
Proof.
  intros H.
  destruct (run_fetch_empty H) as (pre & (Hw & Hf & _ & Hr) & ->).
  unfold trace, outcome; cbn [fst snd].
  rewrite printed_unwritten; rewrite written_app, ?reports_app, Hw, ?Hr;
    repeat split.
Qed.

(** C5. When the fetch returns an error, the process reports an error
    message that ends with the underlying cause, exits with code 1 and
    writes nothing to the table. *)
Theorem fetch_error_exits (regions : list Region) (e : error) :
  fetched (trace the_run) = Some (regions, Some e) ->
  outcome the_run = Halt (OsExit 1) /\
  exit_code (outcome the_run) = 1%Z /\
  In ("Failed to fetch regions: " ++ e)%string
     (reports Error (trace the_run)) /\
  written (trace the_run) = [] /\
  printed (trace the_run) = [].
Proof.
  intros H.
  destruct (run_fetch_error H) as (pre & (Hw & Hf & _) & ->).
  unfold trace, outcome; cbn [fst snd].
  rewrite printed_unwritten; rewrite written_app, ?reports_app, Hw;
    repeat split.
  apply in_or_app. right. now left.
Qed.

(** C7. When building the connection fails, the process reports the
    error and exits with code 1; the run consists of the creation of the
    reporter and of the logger, the failed build and the report, so that
    no credential lookup, no fetch and no output take place. *)
Theorem connection_failure_exits (e : error) :
  connected (trace the_run) = Some (Some e) ->
  the_run
  = ([CreatedReporter; CreatedLogger; BuiltConnection (Some e);
      Reported Error ("Failed to create OCM connection: " ++ e)],
     Halt (OsExit 1))
  /\ exit_code (outcome the_run) <> 0%Z.
Proof.
  intros H. paths; try discriminate H.
  - inversion H; subst. split; [reflexivity | discriminate].
  - exfalso.
    destruct (GetRegions w "aws" (credentials key)) as [[|r regions] [e'|]];
      unfold trace in H; cbn [fst] in H;
      rewrite connected_fetching in H; discriminate H.
Qed.

(** A run that got as far as the AWS client went through lines 81 to 96
    as far as the key lookup let it. *)
Lemma run_resolves :
  client_built (trace the_run) <> None \/ keys_got (trace the_run) <> None ->
  exists rest,
    trace the_run
    = [CreatedReporter; CreatedLogger; BuiltConnection None]
        ++ resolving AdminUserName DefaultRegion w (GetAWSAccessKeys w)
        ++ rest.
Proof.
  intros H.
  paths; try (exfalso; destruct H as [H|H]; apply H; reflexivity); clear H.
  - destruct (GetRegions w "aws" (credentials key)) as [[|r regions] [e|]];
      unfold trace, fetching; cbn [fst];
      rewrite <- !app_assoc; eexists; reflexivity.
  - eexists; reflexivity.
  - eexists; reflexivity.
Qed.

(** C8. When the construction of the AWS client fails, the error is
    reported and the next thing the process does is the key lookup; when
    the key lookup fails, the error is reported and the next thing the
    process does is the debug message that precedes the fetch. In neither
    case does the process stop at the report. *)
Theorem credential_failures_not_fatal (e : error) :
  (client_built (trace the_run) = Some (Some e) ->
   exists pre res post,
     trace the_run
     = pre ++ [BuiltClient DefaultRegion (Some e);
               Reported Error ("Failed to create AWS client: " ++ e);
               GotAWSAccessKeys res] ++ post)
  /\
  (forall key,
   keys_got (trace the_run) = Some (Returns (key, Some e)) ->
   exists pre post,
     trace the_run
     = pre ++ [GotAWSAccessKeys (Returns (key, Some e));
               Reported Error ("Failed to get access keys for user '"
                               ++ AdminUserName ++ "': " ++ e);
               Reported Debug "Fetching regions"] ++ post).
Proof.
  split.
  - intros H.
    destruct run_resolves as [rest Ht]; [left; congruence|].
    rewrite Ht in H |- *.
    cbn [app client_built first] in H.
    rewrite client_built_resolving in H. injection H as Hc.
    destruct (resolving_client_failed AdminUserName DefaultRegion w
                (GetAWSAccessKeys w) Hc) as [post ->].
    exists [CreatedReporter; CreatedLogger; BuiltConnection None],
           (GetAWSAccessKeys w), (post ++ rest).
    now rewrite <- !app_assoc.
  - intros key H.
    destruct run_resolves as [rest Ht]; [right; congruence|].
    rewrite Ht in H |- *.
    cbn [app keys_got first] in H.
    rewrite keys_got_resolving in H. injection H as ->.
    destruct (resolving_keys_failed AdminUserName DefaultRegion w key e)
      as [pre ->].
    exists ([CreatedReporter; CreatedLogger; BuiltConnection None] ++ pre),
           rest.
    now rewrite <- !app_assoc.
Qed.

(** C9. For a non-empty fetched sequence, what is printed to standard
    output through the table writer is the header line with the three
    titles ID, NAME and MULTI-AZ SUPPORT, followed by one line per
    surviving region holding its id, its display name and its multi-AZ
    support as the literal true or false. *)
Theorem table_printed (regions : list Region) :
  fetched (trace the_run) = Some (regions, None) ->
  regions <> [] ->
  printed (trace the_run)
  = ("ID" ++ TAB ++ TAB ++ "NAME" ++ TAB ++ TAB ++ "MULTI-AZ SUPPORT" ++ LF)%string
    :: map (fun r =>
              (ID r ++ TAB ++ TAB ++ DisplayName r ++ TAB ++ TAB
                    ++ (if SupportsMultiAZ r then "true" else "false")
                    ++ LF)%string)
           (surviving (requested cmd args) regions).
Proof. intros H Hne. exact (printed_table H Hne). Qed.

(** Regions that are all disabled or of the other multi-AZ kind leave no
    survivor. *)
Lemma surviving_none (regions : list Region) :
  Forall (fun r => Enabled r = false \/
                   (Changed cmd "multi-az" = true /\
                    SupportsMultiAZ r <> multiAZ args)) regions ->
  surviving (requested cmd args) regions = [].
Proof.
  unfold requested.
  induction 1 as [|r regions Hr _ IH]; [reflexivity|].
  cbn [surviving filter]. fold (surviving (requested cmd args) regions).
  unfold requested in *.
  replace (Enabled r && _) with false; [exact IH|].
  destruct Hr as [-> | [-> Hne]]; [reflexivity|].
  destruct (Enabled r), (multiAZ args), (SupportsMultiAZ r);
    try reflexivity; now contradiction Hne.
Qed.

(** C10. When the fetched sequence is not empty but no region survives
    the filter, the process still prints the header, prints no data row,
    and returns normally, with exit code 0. *)
Theorem header_only_when_all_filtered (regions : list Region) :
  fetched (trace the_run) = Some (regions, None) ->
  regions <> [] ->
  Forall (fun r => Enabled r = false \/
                   (Changed cmd "multi-az" = true /\
                    SupportsMultiAZ r <> multiAZ args)) regions ->
  printed (trace the_run) = [header] /\
  rows (trace the_run) = [] /\
  outcome the_run = Done tt /\
  exit_code (outcome the_run) = 0%Z.
Proof.
  intros H Hne Hall.
  pose proof (printed_table H Hne) as Hp.
  rewrite (surviving_none Hall) in Hp.
  unfold rows. rewrite Hp.
  destruct (run_fetch_table H Hne) as (pre & _ & ->).
  repeat split.
Qed.

(** ** The deferred close *)

(** X8. A run that ends through [os.Exit] never closes the connection:
    the deferred function of line 70 does not run. *)
Lemma exit_skips_close (code : Z) :
  outcome the_run = Halt (OsExit code) ->
  closes (trace the_run) = 0.
Proof.
  intros H. paths; try reflexivity; try discriminate H.
  destruct (GetRegions w "aws" (credentials key)) as [[|r regions] [e'|]];
    try discriminate H;
    unfold trace; cbn [fst]; now rewrite closes_app, closes_fetching.
Qed.

(** X9. A run that built the connection and ends otherwise, by returning
    or by a panic, closes it exactly once. *)
Lemma return_closes (r : Result unit) :
  connected (trace the_run) = Some None ->
  outcome the_run = r ->
  (forall code, r <> Halt (OsExit code)) ->
  closes (trace the_run) = 1.
Proof.
  intros Hc Hr Hne.
  paths; try discriminate Hc; try (now elim (Hne _ (eq_sym Hr))).
  - destruct (GetRegions w "aws" (credentials key)) as [[|r0 regions] [e'|]];
      try (now elim (Hne _ (eq_sym Hr)));
      unfold trace; cbn [fst];
      rewrite closes_app, closes_fetching;
      change (Written header :: ?l) with ([Written header] ++ l);
      rewrite !closes_app, closes_Written;
      change (Flushed :: ?l) with ([Flushed] ++ l);
      now rewrite closes_app, closes_closing.
  - unfold trace; cbn [fst app].
    change (closes (?a :: ?b :: ?c :: ?l)) with (closes l).
    now rewrite closes_app, closes_resolving, closes_closing.
  - unfold trace; cbn [fst app].
    change (closes (?a :: ?b :: ?c :: ?l)) with (closes l).
    now rewrite closes_app, closes_resolving, closes_closing.
Qed.

(** X10. On those paths a failure of [Close] is reported, with its
    cause. *)
Lemma close_error_reported (e : error) (r : Result unit) :
  connected (trace the_run) = Some None ->
  outcome the_run = r ->
  (forall code, r <> Halt (OsExit code)) ->
  Connection_Close w = Some e ->
  In ("Failed to close OCM connection: " ++ e)%string
     (reports Error (trace the_run)).
Proof.
  intros Hc Hr Hne Hclose.
  paths; try discriminate Hc; try (now elim (Hne _ (eq_sym Hr))).
  - destruct (GetRegions w "aws" (credentials key)) as [[|r0 regions] [e'|]];
      try (now elim (Hne _ (eq_sym Hr))).
    unfold trace; cbn [fst].
    change (Written header :: ?l) with ([Written header] ++ l).
    change (Flushed :: ?l) with ([Flushed] ++ l).
    rewrite !app_assoc. now apply reports_closing.
  - unfold trace; cbn [fst]. rewrite !app_assoc. now apply reports_closing.
  - unfold trace; cbn [fst]. rewrite !app_assoc. now apply reports_closing.
Qed.

(** ** How a run ends, read off the world *)

(** The answer of the fetch depends on the collaborators alone, not on
    the command line. *)
Lemma fetched_of_world :
  fetched (trace the_run)
  = match CreateReporterOrExit w, CreateLoggerOrExit w,
          NewConnection_Build w, GetAWSAccessKeys w with
    | None, None, None, Returns (Some key, _) =>
        Some (GetRegions w "aws" (credentials key))
    | _, _, _, _ => None
    end.
Proof.
  paths; try reflexivity.
  - destruct (GetRegions w "aws" (credentials key))
      as [[|r regions] [e'|]] eqn:G;
      unfold trace; cbn [fst]; now rewrite fetched_fetching, G.
  - unfold trace; cbn [fst app fetched first].
    now rewrite fetched_resolving, fetched_closing.
  - unfold trace; cbn [fst app fetched first].
    now rewrite fetched_resolving, fetched_closing.
Qed.

Lemma outcome_of_world :
  outcome the_run
  = match CreateReporterOrExit w, CreateLoggerOrExit w with
    | Some code, _ | None, Some code => Halt (OsExit code)
    | None, None =>
        match NewConnection_Build w, GetAWSAccessKeys w with
        | Some _, _ => Halt (OsExit 1)
        | None, Returns (Some key, _) =>
            match GetRegions w "aws" (credentials key) with
            | (_ :: _, None) => Done tt
            | _ => Halt (OsExit 1)
            end
        | None, _ => Halt Panic
        end
    end.
Proof.
  paths; try reflexivity.
  now destruct (GetRegions w "aws" (credentials key)) as [[|r regions] [e'|]].
Qed.

(** X1. The command returns normally exactly when the fetch succeeded
    with a non-empty sequence. *)
Theorem returns_iff_table :
  outcome the_run = Done tt <->
  exists regions,
    fetched (trace the_run) = Some (regions, None) /\ regions <> [].
Proof.
  rewrite outcome_of_world, fetched_of_world.
  destruct (CreateReporterOrExit w), (CreateLoggerOrExit w),
    (NewConnection_Build w), (GetAWSAccessKeys w) as [[[key|] kerr]|];
    try (split; [discriminate | intros (regions & H & _); discriminate H]).
  destruct (GetRegions w "aws" (credentials key)) as [[|r regions] [e'|]];
    split; try discriminate.
  - intros (regions & H & _). discriminate H.
  - intros (regions & H & Hne). inversion H; subst. now elim Hne.
  - intros (regs & H & _). discriminate H.
  - intros _. exists (r :: regions). split; [reflexivity | discriminate].
  - reflexivity.
Qed.

(** X2. Once the reporter and the logger exist, the command ends in one
    of three ways: it returns, it leaves through [os.Exit(1)], or it
    panics. The exit code is then 0, 1 or 2. *)
Theorem ends_three_ways :
  connected (trace the_run) <> None ->
  (outcome the_run = Done tt \/
   outcome the_run = Halt (OsExit 1) \/
   outcome the_run = Halt Panic) /\
  (exit_code (outcome the_run) = 0 \/
   exit_code (outcome the_run) = 1 \/
   exit_code (outcome the_run) = 2)%Z.
Proof.
  intros H. rewrite outcome_of_world.
  paths; try (now elim H); clear H;
    rewrite ?Hrep, ?Hlog, ?Hconn, ?Hkeys; cbn; try tauto.
  destruct (GetRegions w "aws" (credentials key)) as [[|r regions] [e'|]];
    cbn; tauto.
Qed.

(** X3. When the key lookup panics, or hands back a nil key, the command
    panics before the fetch: no region is fetched, nothing is written to
    the table, the deferred close runs once and the exit code is 2. *)
Theorem unusable_key_panics
    (res : Called (option aws.AccessKey * option error)) :
  keys_got (trace the_run) = Some res ->
  (res = Panics \/ exists kerr, res = Returns (None, kerr)) ->
  outcome the_run = Halt Panic /\
  exit_code (outcome the_run) = 2%Z /\
  fetched (trace the_run) = None /\
  written (trace the_run) = [] /\
  closes (trace the_run) = 1.
Proof.
  intros H Hres.
  destruct run_resolves as [rest Ht]; [right; congruence|].
  rewrite Ht in H. cbn [app keys_got first] in H.
  rewrite keys_got_resolving in H. injection H as Hkeys.
  assert (Hc : connected (trace the_run) = Some None)
    by (rewrite Ht; reflexivity).
  clear Ht rest.
  paths; try discriminate Hc; subst res.
  - exfalso. destruct Hres as [Hres | [kerr' Hres]]; discriminate Hres.
  - repeat split.
    + unfold trace; cbn [fst app fetched first].
      now rewrite fetched_resolving, fetched_closing.
    + unfold trace, resolving, closing; cbn [fst].
      now destruct (NewClient_Build w), kerr, (Connection_Close w).
    + unfold trace, resolving, closing; cbn [fst].
      now destruct (NewClient_Build w), kerr, (Connection_Close w).
  - repeat split.
    + unfold trace; cbn [fst app fetched first].
      now rewrite fetched_resolving, fetched_closing.
    + unfold trace, resolving, closing; cbn [fst].
      now destruct (NewClient_Build w), (Connection_Close w).
    + unfold trace, resolving, closing; cbn [fst].
      now destruct (NewClient_Build w), (Connection_Close w).
Qed.

(** ** What is written, read off the fetch *)

Lemma written_rows (lines : list string) (u : list Event) :
  written (Written header :: map Written lines ++ Flushed :: u)
  = header :: lines ++ written u.
Proof. cbn [written]. now rewrite written_app, written_Written. Qed.

(** What the run hands to the table writer depends on the answer of the
    fetch and on the flag alone. *)
Lemma written_by_fetch :
  written (trace the_run)
  = match fetched (trace the_run) with
    | Some (r :: regions, None) =>
        header :: map row (surviving (requested cmd args) (r :: regions))
    | _ => []
    end.
Proof.
  destruct (fetched (trace the_run)) as [[[|r regions] [e|]]|] eqn:H.
  - destruct (run_fetch_error H) as (pre & (Hw & _) & ->).
    unfold trace; cbn [fst]. now rewrite written_app, Hw.
  - destruct (run_fetch_empty H) as (pre & (Hw & _) & ->).
    unfold trace; cbn [fst]. now rewrite written_app, Hw.
  - destruct (run_fetch_error H) as (pre & (Hw & _) & ->).
    unfold trace; cbn [fst]. now rewrite written_app, Hw.
  - assert (Hne : r :: regions <> []) by discriminate.
    destruct (run_fetch_table H Hne) as (pre & (Hw & _) & ->).
    unfold trace; cbn [fst].
    now rewrite written_app, Hw, written_rows, written_closing, app_nil_r.
  - rewrite fetched_of_world in H. revert H.
    paths; try reflexivity; try discriminate;
      intros _; unfold trace, resolving, closing; cbn [fst].
    + now destruct (NewClient_Build w), kerr, (Connection_Close w).
    + now destruct (NewClient_Build w), (Connection_Close w).
Qed.

Lemma printed_by_fetch :
  printed (trace the_run)
  = match fetched (trace the_run) with
    | Some (r :: regions, None) =>
        header :: map row (surviving (requested cmd args) (r :: regions))
    | _ => []
    end.
Proof.
  pose proof written_by_fetch as Hw.
  destruct (fetched (trace the_run)) as [[[|r regions] [e|]]|] eqn:H;
    try (now apply printed_unwritten).
  apply (printed_table H). discriminate.
Qed.

(** X4. Whatever the run hands to the table writer reaches standard
    output: on every path the lines printed are the lines written, so no
    line is left in the writer when the process ends. *)
Theorem nothing_left_unflushed :
  printed (trace the_run) = written (trace the_run).
Proof. now rewrite printed_by_fetch, written_by_fetch. Qed.

(** ** The calls to the provider and to the key lookup *)

Lemma fetch_in_fetching provider ccs res key kerr :
  In (GotRegions provider ccs res)
     (fetching AdminUserName DefaultRegion w key kerr) ->
  provider = "aws" /\ ccs = credentials key /\
  res = GetRegions w "aws" (credentials key).
Proof.
  unfold fetching, resolving.
  destruct (NewClient_Build w), kerr; cbn; intros H;
    repeat (destruct H as [H|H]; try discriminate H);
    try contradiction; now inversion H.
Qed.

Lemma no_fetch_in_closing provider ccs res :
  ~ In (GotRegions provider ccs res) (closing w).
Proof.
  unfold closing. destruct (Connection_Close w); cbn;
    intros H; repeat (destruct H as [H|H]; try discriminate H); exact H.
Qed.

Lemma no_fetch_in_resolving provider ccs res0 res :
  ~ In (GotRegions provider ccs res0)
       (resolving AdminUserName DefaultRegion w res).
Proof.
  unfold resolving.
  destruct (NewClient_Build w), res as [[k [kerr|]]|]; cbn;
    intros H; repeat (destruct H as [H|H]; try discriminate H); exact H.
Qed.

Lemma no_fetch_in_rows provider ccs res (lines : list string) :
  ~ In (GotRegions provider ccs res) (map Written lines).
Proof. intros H. apply in_map_iff in H as (x & Hx & _). discriminate Hx. Qed.

(** X5. Every fetch the run performs asks the provider for "aws" with an
    enabled customer-cloud-subscription descriptor that carries the id
    and the secret of the access key the lookup handed back, also when
    the lookup handed the key back together with an error; what the run
    goes on with is the provider's answer for exactly these arguments. *)
Theorem fetch_uses_the_key (provider : string) (ccs : cluster.CCS)
    (res : list Region * option error) :
  In (GotRegions provider ccs res) (trace the_run) ->
  provider = "aws" /\
  cluster.Enabled ccs = true /\
  (exists key kerr,
     keys_got (trace the_run) = Some (Returns (Some key, kerr)) /\
     cluster.AccessKeyID (cluster.AWS ccs) = aws.AccessKeyID key /\
     cluster.SecretAccessKey (cluster.AWS ccs) = aws.SecretAccessKey key) /\
  res = GetRegions w "aws" ccs.
Proof.
  paths; cbn [trace fst];
    try (intros H; cbn in H;
         repeat (destruct H as [H|H]; try discriminate H); contradiction).
  - intros H.
    assert (Hin : In (GotRegions provider ccs res)
                     (fetching AdminUserName DefaultRegion w key kerr)).
    { destruct (GetRegions w "aws" (credentials key))
        as [[|r regions] [e'|]];
        cbn [fst] in H; apply in_app_or in H as [H|H]; try exact H;
        exfalso.
      - destruct H as [H|[]]; discriminate H.
      - destruct H as [H|[]]; discriminate H.
      - destruct H as [H|[]]; discriminate H.
      - destruct H as [H|H]; [discriminate H|].
        apply in_app_or in H as [H|H];
          [now apply no_fetch_in_rows in H|].
        destruct H as [H|H]; [discriminate H|].
        now apply no_fetch_in_closing in H. }
    destruct (fetch_in_fetching Hin) as (-> & -> & ->).
    repeat split. exists key, kerr. repeat split.
    destruct (GetRegions w "aws" (credentials key)) as [[|r regions] [e'|]];
      cbn [fst]; apply keys_got_fetching.
  - intros H. exfalso. cbn [app] in H.
    destruct H as [H|[H|[H|H]]]; try discriminate H.
    apply in_app_or in H as [H|H];
      [now apply no_fetch_in_resolving in H
      | now apply no_fetch_in_closing in H].
  - intros H. exfalso. cbn [app] in H.
    destruct H as [H|[H|[H|H]]]; try discriminate H.
    apply in_app_or in H as [H|H];
      [now apply no_fetch_in_resolving in H
      | now apply no_fetch_in_closing in H].
Qed.





Lemma reports_rows (l : Level) (lines : list string) :
  reports l (map Written lines) = [].
Proof. induction lines as [|s lines IH]; [reflexivity | exact IH]. Qed.

(** X7. A run that returns reported no error exactly when the AWS client
    was built, the key lookup handed the key back without an error and
    the connection was closed without an error. *)
Theorem silent_return :
  outcome the_run = Done tt ->
  (reports Error (trace the_run) = [] <->
   NewClient_Build w = None /\
   (exists key, GetAWSAccessKeys w = Returns (Some key, None)) /\
   Connection_Close w = None).
Proof.
  intros Hd. paths; try discriminate Hd.
  destruct (GetRegions w "aws" (credentials key)) as [[|r regions] [e'|]];
    try discriminate Hd.
  unfold trace; cbn [fst].
  change (Written header :: ?l) with ([Written header] ++ l).
  change (Flushed :: ?l) with ([Flushed] ++ l).
  rewrite !reports_app, reports_rows.
  unfold fetching, resolving, closing.
  destruct (NewClient_Build w), kerr, (Connection_Close w); cbn;
    (split;
     [ intros Hr; try discriminate Hr; repeat split; eauto
     | intros (H1 & (k & H2) & H3);
       try discriminate H1; try discriminate H2; try discriminate H3;
       reflexivity ]).
Qed.

End Paths.

(** ** The answer of [Close] *)

(** What [Close] answers changes nothing to the way the run ends, and so
    nothing to the exit code. *)
Lemma close_error_keeps_outcome (AdminUserName DefaultRegion : string)
    (w : World) (cmd : FlagSet) (args : Args) (err : option error) :
  outcome (run AdminUserName DefaultRegion (with_close w err) cmd args)
  = outcome (run AdminUserName DefaultRegion w cmd args).
Proof.
  set (w' := with_close w err).
  destruct (CreateReporterOrExit w) as [code|] eqn:Hrep.
  { now rewrite (run_no_reporter _ _ w cmd args Hrep),
      (run_no_reporter _ _ w' cmd args Hrep). }
  destruct (CreateLoggerOrExit w) as [code|] eqn:Hlog.
  { now rewrite (run_no_logger _ _ w cmd args Hrep Hlog),
      (run_no_logger _ _ w' cmd args Hrep Hlog). }
  destruct (NewConnection_Build w) as [e|] eqn:Hconn.
  { now rewrite (run_no_connection _ _ w cmd args Hrep Hlog Hconn),
      (run_no_connection _ _ w' cmd args Hrep Hlog Hconn). }
  destruct (GetAWSAccessKeys w) as [[[key|] kerr]|] eqn:Hkeys.
  - rewrite (run_fetches _ _ w cmd args Hrep Hlog Hconn Hkeys),
      (run_fetches _ _ w' cmd args Hrep Hlog Hconn Hkeys).
    cbn [GetRegions w' with_close].
    now destruct (GetRegions w "aws" (credentials key))
      as [[|r regions] [e|]].
  - now rewrite
      (run_panics _ _ w cmd args Hrep Hlog Hconn Hkeys
         (or_intror (ex_intro _ kerr eq_refl))),
      (run_panics _ _ w' cmd args Hrep Hlog Hconn Hkeys
         (or_intror (ex_intro _ kerr eq_refl))).
  - now rewrite
      (run_panics _ _ w cmd args Hrep Hlog Hconn Hkeys (or_introl eq_refl)),
      (run_panics _ _ w' cmd args Hrep Hlog Hconn Hkeys (or_introl eq_refl)).
Qed.

(** C6. The claim asks for the connection to be closed on every exit path
    after it was acquired. On the two paths that leave through
    [os.Exit(1)], a fetch error and an empty answer, the connection was
    built, the process exits with code 1 and the deferred [Close] never
    runs. *)
Theorem exit_after_fetch_skips_close :
  let failed :=
    Sample.run (Sample.world (Sample.regions, Some "quota exceeded"))
               Sample.unset (Sample.want false) in
  let empty :=
    Sample.run (Sample.world ([], None)) Sample.unset (Sample.want false) in
  (connected (trace failed) = Some None /\
   outcome failed = Halt (OsExit 1) /\
   closes (trace failed) = 0)
  /\
  (connected (trace empty) = Some None /\
   outcome empty = Halt (OsExit 1) /\
   closes (trace empty) = 0).
Proof. repeat split. Qed.

(** ** The claims on sample invocations *)

(** The spec's example without the flag: the rows of us-east-1 and
    eu-west-1. *)
Lemma rows_without_flag_sample :
  let r := Sample.run (Sample.world (Sample.regions, None))
                      Sample.unset (Sample.want false) in
  fetched (trace r) = Some (Sample.regions, None) /\
  Changed Sample.unset "multi-az" = false /\
  rows (trace r) = [row Sample.us_east_1; row Sample.eu_west_1].
Proof.
  split; [reflexivity | split; [reflexivity|]].
  apply (@rows_without_flag Sample.AdminUserName Sample.DefaultRegion
           (Sample.world (Sample.regions, None)) Sample.unset
           (Sample.want false) Sample.regions); reflexivity.
Defined.

(** The spec's example with [--multi-az=true]: the row of us-east-1. *)
Lemma rows_with_flag_sample :
  let r := Sample.run (Sample.world (Sample.regions, None))
                      Sample.supplied (Sample.want true) in
  fetched (trace r) = Some (Sample.regions, None) /\
  Changed Sample.supplied "multi-az" = true /\
  rows (trace r) = [row Sample.us_east_1].
Proof.
  split; [reflexivity | split; [reflexivity|]].
  apply (proj1 (@rows_with_flag Sample.AdminUserName Sample.DefaultRegion
                  (Sample.world (Sample.regions, None)) Sample.supplied
                  (Sample.want true) Sample.regions true eq_refl));
    reflexivity.
Defined.

Lemma disabled_regions_not_printed_sample :
  let r := Sample.run (Sample.world (Sample.regions, None))
                      Sample.supplied (Sample.want false) in
  fetched (trace r) = Some (Sample.regions, None) /\
  Forall (fun line =>
            exists x, In x Sample.regions /\ Enabled x = true /\ line = row x)
         (rows (trace r)).
Proof.
  split; [reflexivity|].
  apply (@disabled_regions_not_printed Sample.AdminUserName
           Sample.DefaultRegion (Sample.world (Sample.regions, None))
           Sample.supplied (Sample.want false) Sample.regions None).
  reflexivity.
Defined.

Lemma empty_fetch_exits_sample :
  let r := Sample.run (Sample.world ([], None))
                      Sample.unset (Sample.want false) in
  fetched (trace r) = Some ([], None) /\
  outcome r = Halt (OsExit 1) /\
  printed (trace r) = [].
Proof.
  split; [reflexivity|].
  destruct (@empty_fetch_exits Sample.AdminUserName Sample.DefaultRegion
              (Sample.world ([], None)) Sample.unset (Sample.want false)
              eq_refl) as (Hout & _ & _ & _ & Hp).
  split; [exact Hout | exact Hp].
Defined.

Lemma fetch_error_exits_sample :
  let r := Sample.run (Sample.world (Sample.regions, Some "quota exceeded"))
                      Sample.unset (Sample.want false) in
  fetched (trace r) = Some (Sample.regions, Some "quota exceeded") /\
  outcome r = Halt (OsExit 1) /\
  In "Failed to fetch regions: quota exceeded" (reports Error (trace r)).
Proof.
  split; [reflexivity|].
  destruct (@fetch_error_exits Sample.AdminUserName Sample.DefaultRegion
              (Sample.world (Sample.regions, Some "quota exceeded"))
              Sample.unset (Sample.want false) Sample.regions
              "quota exceeded" eq_refl) as (Hout & _ & Hin & _).
  split; [exact Hout | exact Hin].
Defined.

Lemma connection_failure_exits_sample :
  let r := Sample.run Sample.no_connection Sample.unset (Sample.want false) in
  connected (trace r) = Some (Some "connection refused") /\
  r = ([CreatedReporter; CreatedLogger;
        BuiltConnection (Some "connection refused");
        Reported Error "Failed to create OCM connection: connection refused"],
       Halt (OsExit 1)).
Proof.
  split; [reflexivity|].
  apply (@connection_failure_exits Sample.AdminUserName Sample.DefaultRegion
           Sample.no_connection Sample.unset (Sample.want false)
           "connection refused"). reflexivity.
Defined.

Lemma credential_failures_not_fatal_sample :
  let r := Sample.run Sample.no_credentials Sample.unset (Sample.want false) in
  client_built (trace r) = Some (Some "no session") /\
  keys_got (trace r)
  = Some (Returns (Some Sample.key, Some "access denied")) /\
  (exists pre res post,
     trace r
     = pre ++ [BuiltClient Sample.DefaultRegion (Some "no session");
               Reported Error "Failed to create AWS client: no session";
               GotAWSAccessKeys res] ++ post) /\
  (exists pre post,
     trace r
     = pre ++ [GotAWSAccessKeys
                 (Returns (Some Sample.key, Some "access denied"));
               Reported Error
                 "Failed to get access keys for user 'osdCcsAdmin': access denied";
               Reported Debug "Fetching regions"] ++ post).
Proof.
  split; [reflexivity | split; [reflexivity | split]].
  - apply (proj1 (@credential_failures_not_fatal Sample.AdminUserName
                    Sample.DefaultRegion Sample.no_credentials Sample.unset
                    (Sample.want false) "no session")). reflexivity.
  - apply (proj2 (@credential_failures_not_fatal Sample.AdminUserName
                    Sample.DefaultRegion Sample.no_credentials Sample.unset
                    (Sample.want false) "access denied") (Some Sample.key)).
    reflexivity.
Defined.

Lemma table_printed_sample :
  let r := Sample.run (Sample.world (Sample.regions, None))
                      Sample.supplied (Sample.want false) in
  fetched (trace r) = Some (Sample.regions, None) /\
  Sample.regions <> [] /\
  printed (trace r) = [header; row Sample.eu_west_1].
Proof.
  split; [reflexivity | split; [discriminate|]].
  apply (@table_printed Sample.AdminUserName Sample.DefaultRegion
           (Sample.world (Sample.regions, None)) Sample.supplied
           (Sample.want false) Sample.regions); [reflexivity | discriminate].
Defined.

(** Only a disabled region was fetched: the header alone is printed and
    the command returns. *)
Lemma header_only_when_all_filtered_sample :
  let r := Sample.run (Sample.world ([Sample.us_west_1], None))
                      Sample.unset (Sample.want false) in
  fetched (trace r) = Some ([Sample.us_west_1], None) /\
  printed (trace r) = [header] /\
  outcome r = Done tt /\
  exit_code (outcome r) = 0%Z.
Proof.
  split; [reflexivity|].
  destruct (@header_only_when_all_filtered Sample.AdminUserName
              Sample.DefaultRegion (Sample.world ([Sample.us_west_1], None))
              Sample.unset (Sample.want false) [Sample.us_west_1]
              eq_refl) as (Hp & _ & Hout & Hcode).
  - discriminate.
  - constructor; [left; reflexivity | constructor].
  - repeat split; assumption.
Defined.

(** ** Runs compared *)

(** X11. What [Close] answers is only reported: with any other answer the
    run ends the same way, fetches the same answer and prints the same
    lines. *)
Theorem close_answer_only_reported (AdminUserName DefaultRegion : string)
    (w : World) (cmd : FlagSet) (args : Args) (err : option error) :
  outcome (run AdminUserName DefaultRegion (with_close w err) cmd args)
  = outcome (run AdminUserName DefaultRegion w cmd args) /\
  fetched (trace (run AdminUserName DefaultRegion (with_close w err) cmd args))
  = fetched (trace (run AdminUserName DefaultRegion w cmd args)) /\
  printed (trace (run AdminUserName DefaultRegion (with_close w err) cmd args))
  = printed (trace (run AdminUserName DefaultRegion w cmd args)).
Proof.
  rewrite !printed_by_fetch, !outcome_of_world, !fetched_of_world.
  repeat split.
Qed.

(** X12. A failure to build the AWS client and an error handed back with
    the access key are only reported: with any other two errors, or none,
    and the same key, the run ends the same way, fetches the same answer
    and prints the same lines. *)
Theorem credential_errors_only_reported
    (AdminUserName DefaultRegion : string)
    (w : World) (cmd : FlagSet) (args : Args) (cerr kerr : option error) :
  let w' := with_credential_errors w cerr kerr in
  outcome (run AdminUserName DefaultRegion w' cmd args)
  = outcome (run AdminUserName DefaultRegion w cmd args) /\
  fetched (trace (run AdminUserName DefaultRegion w' cmd args))
  = fetched (trace (run AdminUserName DefaultRegion w cmd args)) /\
  printed (trace (run AdminUserName DefaultRegion w' cmd args))
  = printed (trace (run AdminUserName DefaultRegion w cmd args)).
Proof.
  intros w'.
  rewrite !printed_by_fetch, !outcome_of_world, !fetched_of_world.
  unfold w'. cbn.
  destruct (GetAWSAccessKeys w) as [[[key|] e]|]; repeat split.
Qed.

(** X13. The command line changes neither the way the run ends nor what
    is fetched: the flag and its value bear on the printed rows only. *)
Theorem flag_keeps_outcome (AdminUserName DefaultRegion : string)
    (w : World) (cmd cmd' : FlagSet) (args args' : Args) :
  outcome (run AdminUserName DefaultRegion w cmd args)
  = outcome (run AdminUserName DefaultRegion w cmd' args') /\
  fetched (trace (run AdminUserName DefaultRegion w cmd args))
  = fetched (trace (run AdminUserName DefaultRegion w cmd' args')).
Proof. now rewrite !outcome_of_world, !fetched_of_world. Qed.

Lemma filter_split {A} (f g : A -> bool) (l : list A) :
  Permutation (filter f l)
              (filter (fun a => f a && g a) l
               ++ filter (fun a => f a && negb (g a)) l).
Proof.
  induction l as [|a l IH]; [constructor|].
  cbn [filter]. destruct (f a), (g a); cbn.
  - now constructor.
  - now apply Permutation_cons_app.
  - exact IH.
  - exact IH.
Qed.

Lemma surviving_split (regions : list Region) :
  Permutation (surviving None regions)
              (surviving (Some true) regions
               ++ surviving (Some false) regions).
Proof.
  rewrite surviving_unset. unfold surviving.
  rewrite (filter_ext (fun r => Enabled r && Bool.eqb true (SupportsMultiAZ r))
             (fun r => Enabled r && SupportsMultiAZ r))
    by (intros r; now destruct (SupportsMultiAZ r)).
  rewrite (filter_ext (fun r => Enabled r && Bool.eqb false (SupportsMultiAZ r))
             (fun r => Enabled r && negb (SupportsMultiAZ r)))
    by (intros r; now destruct (SupportsMultiAZ r)).
  apply filter_split.
Qed.

(** X14. In one world, the rows printed without the flag are, up to
    order, the rows printed with [--multi-az=true] together with the rows
    printed with [--multi-az=false]: every enabled region is listed under
    exactly one of the two values. *)
Theorem flag_splits_rows (AdminUserName DefaultRegion : string)
    (w : World) (absent present : FlagSet) (args : Args)
    (regions : list Region) :
  fetched (trace (run AdminUserName DefaultRegion w absent args))
  = Some (regions, None) ->
  Changed absent "multi-az" = false ->
  Changed present "multi-az" = true ->
  Permutation
    (rows (trace (run AdminUserName DefaultRegion w absent args)))
    (rows (trace (run AdminUserName DefaultRegion w present
                      {| multiAZ := true |}))
     ++ rows (trace (run AdminUserName DefaultRegion w present
                         {| multiAZ := false |}))).
Proof.
  intros H Habsent Hpresent.
  assert (Hany : forall cmd args',
             fetched (trace (run AdminUserName DefaultRegion w cmd args'))
             = Some (regions, None)).
  { intros cmd args'. rewrite fetched_of_world.
    now rewrite fetched_of_world in H. }
  rewrite !(rows_fetched _ _ _ _ _ (Hany _ _)).
  unfold requested. rewrite Habsent, Hpresent. cbn [multiAZ].
  rewrite <- map_app. apply Permutation_map, surviving_split.
Qed.

(** ** Rows and regions *)

Lemma tab_split (a b x y : string) :
  tab_free a = true ->
  tab_free b = true ->
  (a ++ String "009" x)%string = (b ++ String "009" y)%string ->
  a = b /\ x = y.
Proof.
  revert b. induction a as [|c a IH]; intros [|d b] Ha Hb H; cbn in *.
  - now inversion H.
  - inversion H; subst d. discriminate Hb.
  - inversion H; subst c. discriminate Ha.
  - apply andb_true_iff in Ha as [_ Ha]. apply andb_true_iff in Hb as [_ Hb].
    inversion H; subst d.
    destruct (IH b Ha Hb) as [-> ->]; [assumption | now split].
Qed.

(** X15. A line written for a region tells the region's id, display name
    and multi-AZ support: when the ids and display names of two regions
    hold no tab and the format of line 129 gives both regions the same
    line, the two regions agree on all three. *)
Theorem row_identifies_region (r1 r2 : Region) :
  tab_free (ID r1) = true ->
  tab_free (ID r2) = true ->
  tab_free (DisplayName r1) = true ->
  tab_free (DisplayName r2) = true ->
  fmt.Sprintf "%s\t\t%s\t\t%t\n"
              [fmt.Str (ID r1); fmt.Str (DisplayName r1);
               fmt.Bool (SupportsMultiAZ r1)]
  = fmt.Sprintf "%s\t\t%s\t\t%t\n"
                [fmt.Str (ID r2); fmt.Str (DisplayName r2);
                 fmt.Bool (SupportsMultiAZ r2)] ->
  ID r1 = ID r2 /\
  DisplayName r1 = DisplayName r2 /\
  SupportsMultiAZ r1 = SupportsMultiAZ r2.
Proof.
  intros Hi1 Hi2 Hn1 Hn2 H. rewrite !Sprintf_row in H.
  unfold row, TAB, LF in H. cbn [append] in H.
  destruct (tab_split _ _ _ _ Hi1 Hi2 H) as [Hid Hrest].
  injection Hrest as Hrest.
  destruct (tab_split _ _ _ _ Hn1 Hn2 Hrest) as [Hname Hlit].
  repeat split; try assumption.
  destruct (SupportsMultiAZ r1), (SupportsMultiAZ r2);
    try reflexivity; discriminate Hlit.
Qed.

(** ** The further properties on sample invocations *)

Lemma ends_three_ways_sample :
  let r := Sample.run (Sample.world ([], None))
                      Sample.unset (Sample.want false) in
  connected (trace r) = Some None /\
  ((outcome r = Done tt \/ outcome r = Halt (OsExit 1) \/
    outcome r = Halt Panic) /\
   (exit_code (outcome r) = 0 \/ exit_code (outcome r) = 1 \/
    exit_code (outcome r) = 2)%Z).
Proof.
  split; [reflexivity|].
  apply (@ends_three_ways Sample.AdminUserName Sample.DefaultRegion
           (Sample.world ([], None)) Sample.unset (Sample.want false)).
  discriminate.
Defined.

Lemma unusable_key_panics_sample :
  let r := Sample.run Edge.nil_key Sample.unset (Sample.want false) in
  keys_got (trace r) = Some (Returns (None, Some "stack not found")) /\
  outcome r = Halt Panic /\
  fetched (trace r) = None /\
  closes (trace r) = 1.
Proof.
  split; [reflexivity|].
  destruct (@unusable_key_panics Sample.AdminUserName Sample.DefaultRegion
              Edge.nil_key Sample.unset (Sample.want false)
              (Returns (None, Some "stack not found")) eq_refl
              (or_intror (ex_intro _ (Some "stack not found") eq_refl)))
    as (Hout & _ & Hf & _ & Hc).
  repeat split; assumption.
Defined.

(** The key comes back with an error and is used all the same: the
    provider is asked with its id and its secret. *)
Lemma fetch_uses_the_key_sample :
  let r := Sample.run Edge.by_secret Sample.unset (Sample.want false) in
  In (GotRegions "aws" (credentials Sample.key) (Sample.regions, None))
     (trace r) /\
  keys_got (trace r) = Some (Returns (Some Sample.key, Some "throttled")) /\
  (Sample.regions, @None error)
  = GetRegions Edge.by_secret "aws" (credentials Sample.key).
Proof.
  assert (Hin : In (GotRegions "aws" (credentials Sample.key)
                               (Sample.regions, None))
                   (trace (Sample.run Edge.by_secret Sample.unset
                                      (Sample.want false)))).
  { cbn. do 7 right. now left. }
  split; [exact Hin | split; [reflexivity|]].
  apply (@fetch_uses_the_key Sample.AdminUserName Sample.DefaultRegion
           Edge.by_secret Sample.unset (Sample.want false)
           "aws" (credentials Sample.key) (Sample.regions, None) Hin).
Defined.

Lemma silent_return_sample :
  let w := Sample.world (Sample.regions, None) in
  let r := Sample.run w Sample.unset (Sample.want false) in
  outcome r = Done tt /\
  reports Error (trace r) = [] /\
  NewClient_Build w = None /\ Connection_Close w = None.
Proof.
  split; [reflexivity | split; [reflexivity|]].
  destruct (proj1 (@silent_return Sample.AdminUserName Sample.DefaultRegion
                     (Sample.world (Sample.regions, None)) Sample.unset
                     (Sample.want false) eq_refl) eq_refl)
    as (Hc & _ & Hclose).
  split; assumption.
Defined.

Lemma exit_skips_close_sample :
  let r := Sample.run (Sample.world (Sample.regions, Some "quota exceeded"))
                      Sample.supplied (Sample.want true) in
  outcome r = Halt (OsExit 1) /\ closes (trace r) = 0.
Proof.
  split; [reflexivity|].
  apply (@exit_skips_close Sample.AdminUserName Sample.DefaultRegion
           (Sample.world (Sample.regions, Some "quota exceeded"))
           Sample.supplied (Sample.want true) 1%Z).
  reflexivity.
Defined.

Lemma return_closes_sample :
  let r := Sample.run (Sample.world (Sample.regions, None))
                      Sample.unset (Sample.want false) in
  connected (trace r) = Some None /\
  outcome r = Done tt /\
  closes (trace r) = 1.
Proof.
  split; [reflexivity | split; [reflexivity|]].
  apply (@return_closes Sample.AdminUserName Sample.DefaultRegion
           (Sample.world (Sample.regions, None)) Sample.unset
           (Sample.want false) (Done tt)); try reflexivity.
  discriminate.
Defined.

Lemma close_error_reported_sample :
  let r := Sample.run Edge.close_fails Sample.unset (Sample.want false) in
  connected (trace r) = Some None /\
  outcome r = Done tt /\
  Connection_Close Edge.close_fails = Some "broken pipe" /\
  In "Failed to close OCM connection: broken pipe" (reports Error (trace r)).
Proof.
  split; [reflexivity | split; [reflexivity | split; [reflexivity|]]].
  apply (@close_error_reported Sample.AdminUserName Sample.DefaultRegion
           Edge.close_fails Sample.unset (Sample.want false)
           "broken pipe" (Done tt)); try reflexivity.
  discriminate.
Defined.

(** The spec's three regions: two rows without the flag, one of them
    under each value of the flag. *)
Lemma flag_splits_rows_sample :
  let w := Sample.world (Sample.regions, None) in
  fetched (trace (Sample.run w Sample.unset (Sample.want false)))
  = Some (Sample.regions, None) /\
  Permutation
    (rows (trace (Sample.run w Sample.unset (Sample.want false))))
    (rows (trace (Sample.run w Sample.supplied (Sample.want true)))
     ++ rows (trace (Sample.run w Sample.supplied (Sample.want false)))).
Proof.
  split; [reflexivity|].
  apply (@flag_splits_rows Sample.AdminUserName Sample.DefaultRegion
           (Sample.world (Sample.regions, None)) Sample.unset Sample.supplied
           (Sample.want false) Sample.regions); reflexivity.
Defined.

(** A disabled region and an enabled one with the same id, name and
    multi-AZ support have the same row. *)
Lemma row_identifies_region_sample :
  let twin := {| ID := "us-west-1"; DisplayName := "US West";
                 Enabled := true; SupportsMultiAZ := true |} in
  tab_free (ID twin) = true /\
  tab_free (DisplayName twin) = true /\
  row Sample.us_west_1 = row twin /\
  ID Sample.us_west_1 = ID twin /\
  DisplayName Sample.us_west_1 = DisplayName twin /\
  SupportsMultiAZ Sample.us_west_1 = SupportsMultiAZ twin.
Proof.
  split; [reflexivity | split; [reflexivity | split; [reflexivity|]]].
  apply (@row_identifies_region Sample.us_west_1
           {| ID := "us-west-1"; DisplayName := "US West";
              Enabled := true; SupportsMultiAZ := true |});
    reflexivity.
Defined.
